(** * scripts/test-toml-validation.py: the malformed-fixture check

    A shallow embedding of the script

<<
    try:
        with open('.secrets.toml.test', 'rb') as f:
            tomllib.loads(f.read())
        print("❌ ERROR: TOML validation should have failed!")
        print("   Missing closing quote was not detected!")
        sys.exit(1)
    except tomllib.TOMLDecodeError as e:
        print(f"✅ TOML validation correctly caught error:")
        print(f"   {e}")
        sys.exit(0)
    except Exception as e:
        print(f"⚠️  Unexpected error: {e}")
        sys.exit(1)
>>

    The script is straight-line code over three effects: the file system
    (one [open], one [read], the close done by [with]), standard output
    ([print]) and Python exceptions ([raise], [try]/[except], [sys.exit]).
    They are modelled by a state-and-exception monad over an explicit
    [world]; the interpreter's top level turns the outcome of the module
    body into a process exit status.

    [print] is first taken on a standard output that takes every text;
    [print_on] and the definitions named [_on] are the same statements
    on a stream that may refuse one, as an ASCII-encoded stream refuses
    the glyphs the messages start with. *)

From Stdlib Require Import ZArith String List Lia.
From stdpp Require Import base gmap strings pretty list.

Local Open Scope Z_scope.

(** ** Python exceptions *)

(** The classes of the built-in hierarchy the script can meet, with
    [tomllib.TOMLDecodeError], a subclass of [ValueError].
    [UnicodeEncodeError] is what a write to standard output raises when
    the stream's encoding has no code for a character. *)
Inductive exn_class : Type :=
  | BaseException
  | SystemExit
  | KeyboardInterrupt
  | Exception
  | OSError
  | FileNotFoundError
  | PermissionError
  | IsADirectoryError
  | ValueError
  | TOMLDecodeError
  | UnicodeError
  | UnicodeEncodeError
  | TypeError
  | MemoryError
  | RecursionError.

#[global] Instance exn_class_eq_dec : EqDecision exn_class.
Proof. solve_decision. Defined.

(** The direct base class ([__base__]). *)
Definition base (c : exn_class) : option exn_class :=
  match c with
  | BaseException => None
  | SystemExit | KeyboardInterrupt | Exception => Some BaseException
  | OSError | ValueError | TypeError | MemoryError | RecursionError =>
      Some Exception
  | FileNotFoundError | PermissionError | IsADirectoryError => Some OSError
  | TOMLDecodeError | UnicodeError => Some ValueError
  | UnicodeEncodeError => Some UnicodeError
  end.

(** [issubclass c d]: walk the chain of bases from [c]; the hierarchy has
    height 4, which bounds the walk. *)
Fixpoint issubclass_upto (n : nat) (c d : exn_class) : bool :=
  if decide (c = d) then true
  else match n with
       | O => false
       | S n' => match base c with
                 | None => false
                 | Some p => issubclass_upto n' p d
                 end
       end.

Definition issubclass : exn_class -> exn_class -> bool := issubclass_upto 4.

(** A raised exception: an ordinary one with its class and the text that
    [str(e)] gives, or the [SystemExit] that [sys.exit(code)] raises. *)
Inductive exn : Type :=
  | Err (c : exn_class) (detail : string)
  | SysExit (code : Z).

Definition class_of (e : exn) : exn_class :=
  match e with
  | Err c _ => c
  | SysExit _ => SystemExit
  end.

Definition isinstance (e : exn) (c : exn_class) : bool :=
  issubclass (class_of e) c.

(** [str(e)], as the f-strings of the handlers format it. *)
Definition str (e : exn) : string :=
  match e with
  | Err _ detail => detail
  | SysExit code => pretty code
  end.

(** ** Values, files and the world *)

(** The two Python values that can reach [tomllib.loads]. *)
Inductive pyval : Type :=
  | PyBytes (b : list Byte.byte)
  | PyStr (s : string).

(** A directory entry. *)
Inductive node : Type :=
  | RegularFile (content : list Byte.byte) (readable : bool)
  | Directory.

(** An entry of the table of open files: the path it was opened on and
    the read offset. *)
Record ofile : Type := OFile { of_path : string; of_pos : nat }.

(** What the process does to its environment, in order. *)
Inductive event : Type :=
  | EvOpen (path : string) (binary : bool) (fd : option nat)
  | EvRead (fd : nat) (data : list Byte.byte)
  | EvClose (fd : nat)
  | EvLoads (arg : pyval).

Record world : Type := World {
  fs : gmap string node;       (* the directory tree, by path *)
  handles : gmap nat ofile;    (* open file descriptors *)
  stdout : list string;        (* one entry per [print] call *)
  trace : list event           (* file-system and decoder calls so far *)
}.

Definition set_handles (h : gmap nat ofile) (w : world) : world :=
  World (fs w) h (stdout w) (trace w).

Definition emit (l : string) (w : world) : world :=
  World (fs w) (handles w) (stdout w ++ [l]) (trace w).

Definition emit_lines (ls : list string) (w : world) : world :=
  fold_left (fun w' l => emit l w') ls w.

Definition log (ev : event) (w : world) : world :=
  World (fs w) (handles w) (stdout w) (trace w ++ [ev]).

(** ** The monad of effects *)

Inductive outcome (A : Type) : Type :=
  | Ret (a : A)
  | Raise (e : exn).
Arguments Ret {A} a.
Arguments Raise {A} e.

Definition M (A : Type) : Type := world -> outcome A * world.

Definition ret {A} (a : A) : M A := fun w => (Ret a, w).

Definition raise {A} (e : exn) : M A := fun w => (Raise e, w).

Definition bind {A B} (m : M A) (k : A -> M B) : M B :=
  fun w => match m w with
           | (Ret a, w') => k a w'
           | (Raise e, w') => (Raise e, w')
           end.

Notation "x <- m ;; k" := (bind m (fun x => k))
  (at level 100, m at next level, right associativity).
Notation "m ;;; k" := (bind m (fun _ => k))
  (at level 100, right associativity).

(** ** Built-ins *)

(** [print(s)]. *)
Definition print (s : string) : M unit := fun w => (Ret tt, emit s w).

(** [sys.exit(code)] raises [SystemExit(code)]. *)
Definition sys_exit {A} (code : Z) : M A := raise (SysExit code).

(** The text of an [OSError] that carries a file name. *)
Definition os_error_detail (errno : Z) (strerror path : string) : string :=
  "[Errno " +:+ pretty errno +:+ "] " +:+ strerror +:+ ": '" +:+ path +:+ "'".

(** [open(path, 'rb')]: the file must exist, be a regular file and be
    readable; the new descriptor is one that is not in use. *)
Definition py_open_rb (path : string) : M nat := fun w =>
  match fs w !! path with
  | None =>
      (Raise (Err FileNotFoundError
                (os_error_detail 2 "No such file or directory" path)),
       log (EvOpen path true None) w)
  | Some Directory =>
      (Raise (Err IsADirectoryError
                (os_error_detail 21 "Is a directory" path)),
       log (EvOpen path true None) w)
  | Some (RegularFile _ false) =>
      (Raise (Err PermissionError
                (os_error_detail 13 "Permission denied" path)),
       log (EvOpen path true None) w)
  | Some (RegularFile _ true) =>
      let fd := fresh (dom (handles w)) in
      (Ret fd,
       log (EvOpen path true (Some fd))
           (set_handles (<[fd := OFile path 0]> (handles w)) w))
  end.

(** [f.read()] on a binary file: everything from the offset to the end,
    as [bytes]. *)
Definition file_read (fd : nat) : M pyval := fun w =>
  match handles w !! fd with
  | None => (Raise (Err ValueError "I/O operation on closed file."), w)
  | Some o =>
      match fs w !! of_path o with
      | Some (RegularFile content _) =>
          let data := drop (of_pos o) content in
          (Ret (PyBytes data),
           log (EvRead fd data)
               (set_handles
                  (<[fd := OFile (of_path o) (length content)]> (handles w))
                  w))
      | _ => (Raise (Err OSError "[Errno 5] Input/output error"), w)
      end
  end.

(** [f.close()], which the [with] statement calls through [__exit__]. *)
Definition file_close (fd : nat) : M unit := fun w =>
  (Ret tt, log (EvClose fd) (set_handles (delete fd (handles w)) w)).

(** [with open(path, 'rb') as f: body]: when [open] raises nothing was
    acquired; otherwise [body] runs and the file is closed whether [body]
    returned or raised, and an exception of [body] goes on. *)
Definition with_open_rb {A} (path : string) (body : nat -> M A) : M A :=
  f <- py_open_rb path ;;
  fun w => let (r, w1) := body f w in
           let (_, w2) := file_close f w1 in
           (r, w2).

(** [try: body / except c1 as e: h1 / except c2 as e: h2 ...]: the first
    clause whose class the exception is an instance of handles it; with
    none, it goes on.  An exception raised inside a handler is not
    handled by the later clauses. *)
Fixpoint dispatch {A} (hs : list (exn_class * (exn -> M A))) (e : exn) : M A :=
  match hs with
  | [] => raise e
  | (c, h) :: hs' => if isinstance e c then h e else dispatch hs' e
  end.

Definition try_except {A} (body : M A)
    (hs : list (exn_class * (exn -> M A))) : M A :=
  fun w => match body w with
           | (Ret a, w') => (Ret a, w')
           | (Raise e, w') => dispatch hs e w'
           end.

(** ** The interpreter's top level *)

(** How the process ends: [SystemExit] gives its code; the end of the
    module gives 0; any other exception that reaches the top level is
    reported with a traceback and status 1. *)
Inductive status : Type :=
  | Exited (code : Z)
  | Traceback (e : exn).

Definition exit_code (s : status) : Z :=
  match s with
  | Exited code => code
  | Traceback _ => 1
  end.

Definition run_process (m : M unit) (w : world) : status * world :=
  match m w with
  | (Ret _, w') => (Exited 0, w')
  | (Raise (SysExit code), w') => (Exited code, w')
  | (Raise (Err c d), w') => (Traceback (Err c d), w')
  end.

(** ** The script *)

(** The path literal of the [open] call. *)
Definition fixture_path : string := ".secrets.toml.test".

(** [except tomllib.TOMLDecodeError as e:] *)
Definition on_decode_error (e : exn) : M unit :=
  print "✅ TOML validation correctly caught error:" ;;;
  print ("   " +:+ str e) ;;;
  sys_exit 0.

(** [except Exception as e:] *)
Definition on_other_error (e : exn) : M unit :=
  print ("⚠️  Unexpected error: " +:+ str e) ;;;
  sys_exit 1.

Definition handlers : list (exn_class * (exn -> M unit)) :=
  [(TOMLDecodeError, on_decode_error); (Exception, on_other_error)].

(** The statements of the [try] block that follow the [with] statement. *)
Definition after_decode : M unit :=
  print "❌ ERROR: TOML validation should have failed!" ;;;
  print "   Missing closing quote was not detected!" ;;;
  sys_exit 1.

(** The whole [try] statement, over the read-and-decode step that its
    [with] statement performs. *)
Definition check (step : M unit) : M unit :=
  try_except (step ;;; after_decode) handlers.

(** ** Standard output that may refuse a text *)

(** [print(s)] writes [s] to [sys.stdout], whose encoder raises when it
    cannot encode the text, before anything of it is written.  A
    console says what the stream does with a text: [None] when it takes
    it, the exception it raises otherwise. *)
Definition console : Type := string -> option exn.

(** [print(s)] on a console. *)
Definition print_on (out : console) (s : string) : M unit := fun w =>
  match out s with
  | None => (Ret tt, emit s w)
  | Some e => (Raise e, w)
  end.

(** A stream that takes every text, as one encoded in UTF-8 does; on it
    [print_on] is [print]. *)
Definition utf8_console : console := fun _ => None.

(** The code points of a text held as UTF-8 bytes: [pending] counts the
    continuation bytes still due, [acc] holds the bits read so far. *)
Fixpoint code_points (pending : nat) (acc : N) (bs : list N) : list N :=
  match bs with
  | [] => []
  | b :: bs' =>
      match pending with
      | O =>
          if (b <? 128)%N then b :: code_points 0 0%N bs'
          else if (b <? 224)%N then code_points 1 (N.land b 31) bs'
          else if (b <? 240)%N then code_points 2 (N.land b 15) bs'
          else code_points 3 (N.land b 7) bs'
      | S O => (acc * 64 + N.land b 63)%N :: code_points 0 0%N bs'
      | S p => code_points p (acc * 64 + N.land b 63)%N bs'
      end
  end.

Definition code_points_of (s : string) : list N :=
  code_points 0 0%N (map Byte.to_N (String.list_byte_of_string s)).

(** The first run of code points outside ASCII: where it starts, its
    first code point, and how many it has. *)
Fixpoint run_length (cps : list N) : nat :=
  match cps with
  | c :: cs => if (c <? 128)%N then O else S (run_length cs)
  | [] => O
  end.

Fixpoint first_non_ascii (pos : nat) (cps : list N) : option (nat * N * nat) :=
  match cps with
  | [] => None
  | c :: cs =>
      if (c <? 128)%N then first_non_ascii (S pos) cs
      else Some (pos, c, S (run_length cs))
  end.

(** [%0<width>x]. *)
Definition hex_digit (n : N) : Ascii.ascii :=
  Ascii.ascii_of_N (if (n <? 10)%N then 48 + n else 87 + n)%N.

Fixpoint hex_pad (width : nat) (n : N) : string :=
  match width with
  | O => EmptyString
  | S width' =>
      hex_pad width' (n / 16)%N +:+ String (hex_digit (n mod 16)%N) EmptyString
  end.

(** The escape [repr] shows a code point with, as [UnicodeEncodeError]
    quotes it. *)
Definition escape_code_point (c : N) : string :=
  if (c <? 256)%N then "\x" +:+ hex_pad 2 c
  else if (c <? 65536)%N then "\u" +:+ hex_pad 4 c
  else "\U" +:+ hex_pad 8 c.

(** [str(e)] of the [UnicodeEncodeError] that the ASCII encoder raises
    on a text, if it raises. *)
Definition ascii_encode_error (s : string) : option string :=
  match first_non_ascii 0 (code_points_of s) with
  | None => None
  | Some (pos, c, 1%nat) =>
      Some ("'ascii' codec can't encode character '" +:+ escape_code_point c
            +:+ "' in position " +:+ pretty pos
            +:+ ": ordinal not in range(128)")
  | Some (pos, _, len) =>
      Some ("'ascii' codec can't encode characters in position "
            +:+ pretty pos +:+ "-" +:+ pretty (pos + len - 1)%nat
            +:+ ": ordinal not in range(128)")
  end.

(** A stream encoded in ASCII, as under [PYTHONIOENCODING=ascii]. *)
Definition ascii_console : console := fun s =>
  match ascii_encode_error s with
  | None => None
  | Some detail => Some (Err UnicodeEncodeError detail)
  end.

(** The statements of the script, printing on a console.  [check] is
    [check_on utf8_console]. *)
Definition on_decode_error_on (out : console) (e : exn) : M unit :=
  print_on out "✅ TOML validation correctly caught error:" ;;;
  print_on out ("   " +:+ str e) ;;;
  sys_exit 0.

Definition on_other_error_on (out : console) (e : exn) : M unit :=
  print_on out ("⚠️  Unexpected error: " +:+ str e) ;;;
  sys_exit 1.

Definition handlers_on (out : console) : list (exn_class * (exn -> M unit)) :=
  [(TOMLDecodeError, on_decode_error_on out);
   (Exception, on_other_error_on out)].

Definition after_decode_on (out : console) : M unit :=
  print_on out "❌ ERROR: TOML validation should have failed!" ;;;
  print_on out "   Missing closing quote was not detected!" ;;;
  sys_exit 1.

Definition check_on (out : console) (step : M unit) : M unit :=
  try_except (step ;;; after_decode_on out) (handlers_on out).

(** ** The three buckets of the specification *)

Inductive bucket : Type :=
  | UnexpectedSuccess
  | ExpectedFailureCaught
  | UnexpectedError.

#[global] Instance bucket_eq_dec : EqDecision bucket.
Proof. solve_decision. Defined.

(** The bucket an outcome of the read-and-decode step belongs to; none
    for an exception outside [Exception]. *)
Definition classify (o : outcome unit) : option bucket :=
  match o with
  | Ret _ => Some UnexpectedSuccess
  | Raise e =>
      if isinstance e TOMLDecodeError then Some ExpectedFailureCaught
      else if isinstance e Exception then Some UnexpectedError
      else None
  end.

(** The step ended with an exception that is an instance of [c]. *)
Definition raises {A} (o : outcome A) (c : exn_class) : Prop :=
  match o with
  | Ret _ => False
  | Raise e => isinstance e c = true
  end.

(** The outcomes a read-and-decode step can have: it returns, or it
    raises an error, that is an instance of [Exception] (an interrupt
    delivered from outside, [KeyboardInterrupt], is not one). *)
Definition in_scope {A} (o : outcome A) : Prop :=
  match o with
  | Ret _ => True
  | Raise e => isinstance e Exception = true
  end.

(** The error text a bucket's message shows. *)
Definition detail_of (o : outcome unit) : string :=
  match o with
  | Ret _ => ""
  | Raise e => str e
  end.

Definition bucket_lines (b : bucket) (detail : string) : list string :=
  match b with
  | UnexpectedSuccess =>
      ["❌ ERROR: TOML validation should have failed!";
       "   Missing closing quote was not detected!"]
  | ExpectedFailureCaught =>
      ["✅ TOML validation correctly caught error:"; "   " +:+ detail]
  | UnexpectedError => ["⚠️  Unexpected error: " +:+ detail]
  end.

Definition bucket_code (b : bucket) : Z :=
  match b with
  | ExpectedFailureCaught => 0
  | UnexpectedSuccess | UnexpectedError => 1
  end.

(** What one run adds to standard output. *)
Definition printed (before after : world) : list string :=
  drop (length (stdout before)) (stdout after).

(** What one run adds to the trace. *)
Definition performed (before after : world) : list event :=
  drop (length (trace before)) (trace after).

(** [sub in s] on strings. *)
Definition contains (sub s : string) : bool :=
  match String.index 0 sub s with
  | Some _ => true
  | None => false
  end.

(** Kinds of events: a call of [open], one that returned a descriptor, a
    close, a call of the decoder. *)
Definition is_open (ev : event) : bool :=
  match ev with EvOpen _ _ _ => true | _ => false end.

Definition is_acquire (ev : event) : bool :=
  match ev with EvOpen _ _ (Some _) => true | _ => false end.

Definition is_close (ev : event) : bool :=
  match ev with EvClose _ => true | _ => false end.

Definition is_loads (ev : event) : bool :=
  match ev with EvLoads _ => true | _ => false end.

(** The most descriptors held at once along a trace, from [held]. *)
Fixpoint peak_held (held : nat) (t : list event) : nat :=
  match t with
  | [] => held
  | EvOpen _ _ (Some _) :: t' => Nat.max held (peak_held (S held) t')
  | EvClose _ :: t' => Nat.max held (peak_held (Nat.pred held) t')
  | _ :: t' => peak_held held t'
  end.

(** ** Sample environments *)

(** The bytes of the malformed fixture: [key = ], a quote character,
    [unterminated], and no closing quote. *)
Definition unterminated_bytes : list Byte.byte :=
  String.list_byte_of_string "key = " ++ [Byte.x22]
    ++ String.list_byte_of_string "unterminated".

(** The bytes of a well-formed fixture: [key = ] and [valid] between
    quote characters. *)
Definition valid_bytes : list Byte.byte :=
  String.list_byte_of_string "key = " ++ [Byte.x22]
    ++ String.list_byte_of_string "valid" ++ [Byte.x22].

Definition unterminated_text : string :=
  String.string_of_list_byte unterminated_bytes.

Definition valid_text : string := String.string_of_list_byte valid_bytes.

Definition world_with (n : option node) : world :=
  World (match n with
         | Some x => {[ fixture_path := x ]}
         | None => ∅
         end) ∅ [] [].

Definition malformed_world : world :=
  world_with (Some (RegularFile unterminated_bytes true)).

Definition wellformed_world : world :=
  world_with (Some (RegularFile valid_bytes true)).

Definition missing_world : world := world_with None.

(** A world that differs from [malformed_world] everywhere but at the
    fixture: another file, an open descriptor, earlier output. *)
Definition busy_world : world :=
  World (<[ "pyproject.toml" := RegularFile valid_bytes true ]>
           {[ fixture_path := RegularFile unterminated_bytes true ]})
        {[ 3%nat := OFile "pyproject.toml" 0 ]}
        ["earlier output"]
        [EvOpen "pyproject.toml" true (Some 3%nat)].

(** The text of the [TypeError] that CPython 3.11 to 3.13 raise when
    [bytes.replace] is given [str] arguments. *)
Definition cpython_bytes_detail : string :=
  "a bytes-like object is required, not 'str'".

(** A stand-in for the decoder on text, to instantiate the script's
    parameter in examples: it accepts a text when its quote characters
    pair up. *)
Definition count_quotes (s : string) : nat :=
  length (List.filter (fun b => Byte.eqb b Byte.x22)
            (String.list_byte_of_string s)).

Definition paired_quotes_decoder (s : string) : outcome unit :=
  if Nat.even (count_quotes s) then Ret tt
  else Raise (Err TOMLDecodeError "Unterminated string (at end of document)").

(** A decoder that accepts every text. *)
Definition lenient_decoder (s : string) : outcome unit := Ret tt.

Section Script.

(** [tomllib] is not part of the repository.  Its decoder on text is a
    parameter, and so is the text of the [TypeError] it raises on a
    [bytes] argument, which depends on the CPython version. *)
Variable toml_doc : Type.
Variable toml_parse : string -> outcome toml_doc.
Variable bytes_detail : string.

(** [tomllib.loads(s)].  Its first statement is
    [src = s.replace("\r\n", "\n")]: on a [bytes] object the call of
    [replace] with [str] arguments raises [TypeError], before the
    decoder looks at any character. *)
Definition loads (s : pyval) : M toml_doc := fun w =>
  match s with
  | PyBytes _ => (Raise (Err TypeError bytes_detail), log (EvLoads s) w)
  | PyStr src => (toml_parse src, log (EvLoads s) w)
  end.

(** [with open('.secrets.toml.test', 'rb') as f: tomllib.loads(f.read())] *)
Definition read_and_decode : M unit :=
  with_open_rb fixture_path
    (fun f => data <- file_read f ;; _ <- loads data ;; ret tt).

(** The module body. *)
Definition main : M unit := check read_and_decode.

(** The module body, printing on a console. *)
Definition main_on (out : console) : M unit := check_on out read_and_decode.

(** The decode call on a text argument, as a file opened in text mode
    would give it; it reaches the decoder proper. *)
Definition decode_text (src : string) : M unit :=
  _ <- loads (PyStr src) ;; ret tt.

(** *** The run in closed form *)

(** The exception the read-and-decode step ends with, by the directory
    entry at the fixture path. *)
Definition step_error (n : option node) : exn :=
  match n with
  | None =>
      Err FileNotFoundError
        (os_error_detail 2 "No such file or directory" fixture_path)
  | Some Directory =>
      Err IsADirectoryError
        (os_error_detail 21 "Is a directory" fixture_path)
  | Some (RegularFile _ false) =>
      Err PermissionError
        (os_error_detail 13 "Permission denied" fixture_path)
  | Some (RegularFile _ true) => Err TypeError bytes_detail
  end.

(** The events of the step, [fd] being the descriptor [open] picks. *)
Definition step_events (n : option node) (fd : nat) : list event :=
  match n with
  | Some (RegularFile content true) =>
      [EvOpen fixture_path true (Some fd); EvRead fd content;
       EvLoads (PyBytes content); EvClose fd]
  | _ => [EvOpen fixture_path true None]
  end.

Definition step_world (w : world) : world :=
  World (fs w) (handles w) (stdout w)
    (trace w ++ step_events (fs w !! fixture_path)
                  (fresh (dom (handles w)))).

Definition final_world (w : world) : world :=
  emit_lines
    (bucket_lines UnexpectedError (str (step_error (fs w !! fixture_path))))
    (step_world w).

(** ** Properties *)

#[local] Arguments isinstance : simpl never.

(** *** The class hierarchy *)

Lemma isinstance_Err (c d : exn_class) (detail : string) :
  isinstance (Err c detail) d = issubclass c d.
Proof. reflexivity. Qed.

Lemma SystemExit_not_Exception (code : Z) :
  isinstance (SysExit code) Exception = false.
Proof. reflexivity. Qed.

Lemma SystemExit_not_TOMLDecodeError (code : Z) :
  isinstance (SysExit code) TOMLDecodeError = false.
Proof. reflexivity. Qed.

Lemma TOMLDecodeError_is_Exception :
  issubclass TOMLDecodeError Exception = true.
Proof. reflexivity. Qed.

Lemma issubclass_Exception_trans (c : exn_class) :
  issubclass c TOMLDecodeError = true -> issubclass c Exception = true.
Proof. destruct c; cbv; congruence. Qed.

(** *** Output and trace bookkeeping *)

Lemma emit_lines_cons (l : string) (ls : list string) (w : world) :
  emit_lines (l :: ls) w = emit_lines ls (emit l w).
Proof. reflexivity. Qed.

Lemma stdout_emit_lines (ls : list string) (w : world) :
  stdout (emit_lines ls w) = stdout w ++ ls.
Proof.
  revert w. induction ls as [|l ls IH]; intros w.
  - cbn. by rewrite app_nil_r.
  - rewrite emit_lines_cons, IH. cbn. by rewrite <- app_assoc.
Qed.

Lemma emit_lines_frame (ls : list string) (w : world) :
  fs (emit_lines ls w) = fs w /\
  handles (emit_lines ls w) = handles w /\
  trace (emit_lines ls w) = trace w.
Proof.
  revert w. induction ls as [|l ls IH]; intros w; [done|].
  rewrite emit_lines_cons.
  destruct (IH (emit l w)) as (-> & -> & ->). done.
Qed.

Lemma printed_emit_lines (ls : list string) (w w1 : world) :
  stdout w1 = stdout w -> printed w (emit_lines ls w1) = ls.
Proof.
  intros E. unfold printed. rewrite stdout_emit_lines, E.
  by rewrite drop_app_length.
Qed.

(** *** The [try] statement over any step *)

(** The run of [check step], by the outcome of [step]. *)
Lemma check_run (step : M unit) (w : world) :
  run_process (check step) w =
  let (o, w1) := step w in
  match classify o with
  | Some b => (Exited (bucket_code b),
               emit_lines (bucket_lines b (detail_of o)) w1)
  | None => match o with
            | Raise (SysExit code) => (Exited code, w1)
            | Raise e => (Traceback e, w1)
            | Ret _ => (Exited 0, w1)
            end
  end.
Proof.
  unfold run_process, check, try_except, bind.
  destruct (step w) as [[[]|e] w1]; [reflexivity|].
  destruct e as [c d|code]; [|reflexivity].
  destruct c; reflexivity.
Qed.

(** *** The read-and-decode step of the script *)

Lemma py_open_rb_acquires (path : string) (w : world)
    (content : list Byte.byte) :
  fs w !! path = Some (RegularFile content true) ->
  py_open_rb path w =
    (Ret (fresh (dom (handles w))),
     World (fs w)
       (<[fresh (dom (handles w)) := OFile path 0]> (handles w))
       (stdout w)
       (trace w ++ [EvOpen path true (Some (fresh (dom (handles w))))])).
Proof. intros E. unfold py_open_rb. by rewrite E. Qed.

Lemma file_read_all (fd : nat) (path : string) (w : world)
    (content : list Byte.byte) (r : bool) :
  handles w !! fd = Some (OFile path 0) ->
  fs w !! path = Some (RegularFile content r) ->
  file_read fd w =
    (Ret (PyBytes content),
     World (fs w) (<[fd := OFile path (length content)]> (handles w))
       (stdout w) (trace w ++ [EvRead fd content])).
Proof. intros H E. unfold file_read. rewrite H. cbn. by rewrite E. Qed.

Lemma fresh_fd_unused (w : world) :
  handles w !! fresh (dom (handles w)) = None.
Proof. apply not_elem_of_dom, is_fresh. Qed.

(** The step never returns: it ends with [step_error], in
    [step_world]. *)
Lemma read_and_decode_run (w : world) :
  read_and_decode w =
    (Raise (step_error (fs w !! fixture_path)), step_world w).
Proof.
  unfold read_and_decode, with_open_rb, bind, step_world.
  destruct (fs w !! fixture_path) as [[content [|]|]|] eqn:E;
    try (unfold py_open_rb; rewrite E; reflexivity).
  rewrite (py_open_rb_acquires _ _ _ E).
  set (fd := fresh (dom (handles w))).
  erewrite file_read_all; [|apply lookup_insert_eq|exact E].
  cbn. unfold log, set_handles. cbn.
  rewrite insert_insert_eq, delete_insert_id by apply fresh_fd_unused.
  by rewrite <- !app_assoc.
Qed.

Lemma step_error_bucket (n : option node) :
  classify (Raise (step_error n)) = Some UnexpectedError.
Proof. destruct n as [[content [|]|]|]; reflexivity. Qed.

Lemma read_and_decode_in_scope (w : world) :
  in_scope (read_and_decode w).1.
Proof.
  rewrite read_and_decode_run. cbn.
  destruct (fs w !! fixture_path) as [[content [|]|]|]; reflexivity.
Qed.

(** Every run of the script ends with status 1, in [final_world]. *)
Lemma main_run (w : world) :
  run_process main w = (Exited 1, final_world w).
Proof.
  unfold main. rewrite check_run, read_and_decode_run, step_error_bucket.
  reflexivity.
Qed.

Lemma printed_final_world (w : world) :
  printed w (final_world w) =
    ["⚠️  Unexpected error: " +:+ str (step_error (fs w !! fixture_path))].
Proof. unfold final_world. by apply printed_emit_lines. Qed.

Lemma performed_final_world (w : world) :
  performed w (final_world w) =
    step_events (fs w !! fixture_path) (fresh (dom (handles w))).
Proof.
  unfold performed, final_world.
  destruct (emit_lines_frame
    (bucket_lines UnexpectedError (str (step_error (fs w !! fixture_path))))
    (step_world w)) as (_ & _ & ->).
  cbn. by rewrite drop_app_length.
Qed.

Lemma final_world_frame (w : world) :
  fs (final_world w) = fs w /\ handles (final_world w) = handles w.
Proof.
  unfold final_world.
  destruct (emit_lines_frame
    (bucket_lines UnexpectedError (str (step_error (fs w !! fixture_path))))
    (step_world w)) as (-> & -> & _).
  done.
Qed.



(** *** The claims on the [try] statement *)

(** C2. The exit code is 0 exactly when the read-and-decode step failed
    with an instance of [TOMLDecodeError]; when the step returned, or
    failed with any other error, the process exits with 1.  This holds
    for the [try] statement over any step whose errors are instances of
    [Exception], and so for every run of the script. *)
Theorem exit_code_zero_iff_decode_error :
  (forall (step : M unit) (w : world),
      in_scope (step w).1 ->
      (exit_code (run_process (check step) w).1 = 0
         <-> raises (step w).1 TOMLDecodeError) /\
      (~ raises (step w).1 TOMLDecodeError ->
         (run_process (check step) w).1 = Exited 1)) /\
  (forall w : world,
      (exit_code (run_process main w).1 = 0
         <-> raises (read_and_decode w).1 TOMLDecodeError) /\
      (~ raises (read_and_decode w).1 TOMLDecodeError ->
         (run_process main w).1 = Exited 1)).
Proof.
  assert (G : forall (step : M unit) (w : world),
      in_scope (step w).1 ->
      (exit_code (run_process (check step) w).1 = 0
         <-> raises (step w).1 TOMLDecodeError) /\
      (~ raises (step w).1 TOMLDecodeError ->
         (run_process (check step) w).1 = Exited 1)).
  { intros step w. rewrite check_run.
    destruct (step w) as [[[]|e] w1]; cbn.
    - intros _. split; [split; [discriminate|intros []]|done].
    - intros S. rewrite S.
      destruct (isinstance e TOMLDecodeError); cbn.
      + split; [done|]. intros N. by destruct N.
      + split; [split; discriminate|done]. }
  split; [exact G|].
  intros w. apply (G read_and_decode), read_and_decode_in_scope.
Qed.

(** C10. When the step returns, [sys.exit(1)] raises [SystemExit(1)]
    inside the [try] block.  [SystemExit] is an instance neither of
    [Exception] nor of [TOMLDecodeError], so no clause of the [try]
    statement handles it: the process exits with 1, having printed
    the two lines of the success branch and nothing of the others. *)
Theorem success_exit_not_intercepted (step : M unit) (w w1 : world) :
  step w = (Ret tt, w1) ->
  isinstance (SysExit 1) Exception = false /\
  isinstance (SysExit 1) TOMLDecodeError = false /\
  (step ;;; after_decode) w =
    (Raise (SysExit 1),
     emit_lines ["❌ ERROR: TOML validation should have failed!";
                 "   Missing closing quote was not detected!"] w1) /\
  dispatch handlers (SysExit 1) = raise (SysExit 1) /\
  run_process (check step) w =
    (Exited 1,
     emit_lines ["❌ ERROR: TOML validation should have failed!";
                 "   Missing closing quote was not detected!"] w1).
Proof.
  intros R. repeat split.
  - unfold bind. by rewrite R.
  - by rewrite check_run, R.
Qed.

(** *** The claims on the script *)

(** C4. With no file at the fixture path, [open] raises
    [FileNotFoundError], an [OSError] and not a [TOMLDecodeError]; the
    script prints the one warning line with the error text and exits
    with 1. *)
Theorem missing_fixture_warns (w : world) :
  fs w !! fixture_path = None ->
  (read_and_decode w).1 =
    Raise (Err FileNotFoundError
      "[Errno 2] No such file or directory: '.secrets.toml.test'") /\
  issubclass FileNotFoundError OSError = true /\
  issubclass FileNotFoundError TOMLDecodeError = false /\
  (run_process main w).1 = Exited 1 /\
  printed w (run_process main w).2 =
    ["⚠️  Unexpected error: [Errno 2] No such file or directory: '.secrets.toml.test'"].
Proof.
  intros E. rewrite main_run, read_and_decode_run. cbn.
  rewrite printed_final_world, E. done.
Qed.

(** C6. The exit status and the printed lines of a run depend on the
    world only through the entry at the fixture path: two runs in
    worlds that agree there give the same status and the same lines.
    A run leaves the directory tree as it was, so a second run after
    it repeats the first. *)
Theorem runs_agree_on_same_fixture (w1 w2 : world) :
  fs w1 !! fixture_path = fs w2 !! fixture_path ->
  ((run_process main w1).1 = (run_process main w2).1 /\
   printed w1 (run_process main w1).2 =
     printed w2 (run_process main w2).2) /\
  (let w1' := (run_process main w1).2 in
   fs w1' = fs w1 /\
   (run_process main w1').1 = (run_process main w1).1 /\
   printed w1' (run_process main w1').2 = printed w1 w1').
Proof.
  intros E. cbv zeta. repeat (rewrite main_run; cbn [fst snd]).
  destruct (final_world_frame w1) as [F _].
  rewrite !printed_final_world, F, E. done.
Qed.

(** C7. Every run calls [open] once.  It holds at most one descriptor
    at a time, closes as many as it acquired, and ends with the table
    of open files as it found it.  When the fixture can be opened, the
    step ends with an error ([TypeError] from the decode call), one
    descriptor was acquired, it was not in use before, and it is
    closed after the failed call. *)
Theorem one_scoped_handle (w : world) :
  let w' := (run_process main w).2 in
  let t := performed w w' in
  length (List.filter is_open t) = 1%nat /\
  length (List.filter is_acquire t) = length (List.filter is_close t) /\
  (peak_held 0 t <= 1)%nat /\
  handles w' = handles w /\
  (forall content : list Byte.byte,
      fs w !! fixture_path = Some (RegularFile content true) ->
      raises (read_and_decode w).1 TypeError /\
      exists fd : nat,
        handles w !! fd = None /\
        t = [EvOpen fixture_path true (Some fd); EvRead fd content;
             EvLoads (PyBytes content); EvClose fd]).
Proof.
  rewrite main_run. cbn [fst snd].
  destruct (final_world_frame w) as [_ H].
  rewrite performed_final_world, read_and_decode_run.
  split; [by destruct (fs w !! fixture_path) as [[c [|]|]|]|].
  split; [by destruct (fs w !! fixture_path) as [[c [|]|]|]|].
  split; [destruct (fs w !! fixture_path) as [[c [|]|]|]; cbn; lia|].
  split; [exact H|].
  intros content E. rewrite E. cbn [fst step_error step_events].
  split; [reflexivity|].
  eexists. split; [apply fresh_fd_unused|reflexivity].
Qed.

(** C8. A run leaves the directory tree and the table of open files
    unchanged.  Its only dealings with the file system are one [open]
    of the fixture path in binary mode and, when that succeeds, one
    [read] and the close; the bytes read are the whole content of the
    file and are the argument of the one call of the decoder. *)
Theorem only_reads_fixture (w : world) :
  let w' := (run_process main w).2 in
  let t := performed w w' in
  fs w' = fs w /\
  handles w' = handles w /\
  (forall (p : string) (b : bool) (r : option nat),
      In (EvOpen p b r) t -> p = ".secrets.toml.test" /\ b = true) /\
  (length (List.filter is_loads t) <= 1)%nat /\
  match fs w !! fixture_path with
  | Some (RegularFile content true) =>
      exists fd : nat,
        t = [EvOpen ".secrets.toml.test" true (Some fd); EvRead fd content;
             EvLoads (PyBytes content); EvClose fd]
  | _ => t = [EvOpen ".secrets.toml.test" true None]
  end.
Proof.
  rewrite main_run. cbn [fst snd].
  destruct (final_world_frame w) as [F H].
  rewrite performed_final_world.
  split; [exact F|]. split; [exact H|].
  destruct (fs w !! fixture_path) as [[content [|]|]|];
    cbn; unfold fixture_path;
    (split; [intros p b r I; intuition congruence|]);
    (split; [lia|]); eauto.
Qed.

End Script.

(** ** The decode call on [bytes] *)

(** C9. When the fixture can be opened and read, its bytes reach
    [tomllib.loads] as a [bytes] object and the call raises [TypeError];
    the decoder on text plays no part (the run is the same whatever it
    is).  The error falls in the third bucket: the script prints the
    [Unexpected error] line with the error text and exits with 1.  In no
    world does the step fall in one of the other two buckets. *)
Theorem bytes_argument_always_type_error
    (doc : Type) (parse : string -> outcome doc) (detail : string)
    (w : world) (content : list Byte.byte) :
  fs w !! fixture_path = Some (RegularFile content true) ->
  (read_and_decode doc parse detail w).1 = Raise (Err TypeError detail) /\
  In (EvLoads (PyBytes content))
     (performed w (run_process (main doc parse detail) w).2) /\
  (forall (doc' : Type) (parse' : string -> outcome doc'),
      run_process (main doc' parse' detail) w =
      run_process (main doc parse detail) w) /\
  classify (read_and_decode doc parse detail w).1 = Some UnexpectedError /\
  (run_process (main doc parse detail) w).1 = Exited 1 /\
  printed w (run_process (main doc parse detail) w).2 =
    ["⚠️  Unexpected error: " +:+ detail] /\
  (forall w' : world,
      classify (read_and_decode doc parse detail w').1
        = Some UnexpectedError).
Proof.
  intros E.
  rewrite main_run, read_and_decode_run. cbn [fst snd].
  rewrite performed_final_world, printed_final_world, E.
  cbn [step_error step_events str].
  repeat split.
  - cbn. auto.
  - intros doc' parse'. by rewrite main_run.
  - intros w'. rewrite read_and_decode_run. apply step_error_bucket.
Qed.

(** ** The fixtures of the specification *)

(** C1. The malformed fixture: the run exits with 1 after printing the
    [Unexpected error] line; the line of the expected branch is not
    printed, whatever the decoder on text is. *)
Theorem malformed_fixture_exits_1 :
  forall (doc : Type) (parse : string -> outcome doc),
    let r := run_process (main doc parse cpython_bytes_detail) malformed_world in
    r.1 = Exited 1 /\
    stdout r.2 =
      ["⚠️  Unexpected error: a bytes-like object is required, not 'str'"] /\
    existsb (contains "TOML validation correctly caught error") (stdout r.2)
      = false.
Proof.
  intros doc parse. cbv zeta. rewrite main_run. cbn [fst snd].
  split; [reflexivity|]. split; vm_compute; reflexivity.
Qed.

(** C3. The well-formed fixture: the run exits with 1, but what it
    prints is the [Unexpected error] line, not the line of the success
    branch, whatever the decoder on text is. *)
Theorem wellformed_fixture_prints_warning :
  forall (doc : Type) (parse : string -> outcome doc),
    let r := run_process (main doc parse cpython_bytes_detail) wellformed_world in
    r.1 = Exited 1 /\
    stdout r.2 =
      ["⚠️  Unexpected error: a bytes-like object is required, not 'str'"] /\
    existsb (contains "ERROR: TOML validation should have failed!")
      (stdout r.2) = false.
Proof.
  intros doc parse. cbv zeta. rewrite main_run. cbn [fst snd].
  split; [reflexivity|]. split; vm_compute; reflexivity.
Qed.

(** The branches the two fixtures were meant for are reached when the
    same content is given to the decoder as text. *)
Example text_argument_reaches_decoder :
  (run_process
     (check (decode_text unit paired_quotes_decoder cpython_bytes_detail
               unterminated_text)) missing_world).1 = Exited 0 /\
  (run_process
     (check (decode_text unit paired_quotes_decoder cpython_bytes_detail
               valid_text)) missing_world).1 = Exited 1.
Proof. split; reflexivity. Qed.

(** ** Instances *)

Lemma exit_code_zero_iff_decode_error_witness :
  in_scope
    (decode_text unit paired_quotes_decoder cpython_bytes_detail
       unterminated_text missing_world).1 /\
  exit_code
    (run_process
       (check (decode_text unit paired_quotes_decoder cpython_bytes_detail
                 unterminated_text)) missing_world).1 = 0.
Proof.
  assert (S : in_scope
    (decode_text unit paired_quotes_decoder cpython_bytes_detail
       unterminated_text missing_world).1) by reflexivity.
  split; [exact S|].
  apply (proj1 (exit_code_zero_iff_decode_error unit paired_quotes_decoder
                  cpython_bytes_detail) _ _ S).
  reflexivity.
Defined.

Lemma success_exit_not_intercepted_witness :
  decode_text unit lenient_decoder cpython_bytes_detail valid_text
    wellformed_world =
    (Ret tt, log (EvLoads (PyStr valid_text)) wellformed_world) /\
  (run_process
     (check (decode_text unit lenient_decoder cpython_bytes_detail valid_text))
     wellformed_world).1 = Exited 1.
Proof.
  assert (R : decode_text unit lenient_decoder cpython_bytes_detail valid_text
                wellformed_world =
              (Ret tt, log (EvLoads (PyStr valid_text)) wellformed_world))
    by reflexivity.
  split; [exact R|].
  destruct (success_exit_not_intercepted _ _ _ R) as (_ & _ & _ & _ & ->).
  reflexivity.
Defined.

Lemma missing_fixture_warns_witness :
  fs missing_world !! fixture_path = None /\
  (run_process (main unit lenient_decoder cpython_bytes_detail)
     missing_world).1 = Exited 1.
Proof.
  assert (E : fs missing_world !! fixture_path = None) by reflexivity.
  split; [exact E|].
  exact (proj1 (proj2 (proj2 (proj2
    (missing_fixture_warns unit lenient_decoder cpython_bytes_detail
       missing_world E))))).
Defined.

Lemma runs_agree_on_same_fixture_witness :
  fs malformed_world !! fixture_path = fs busy_world !! fixture_path /\
  (run_process (main unit paired_quotes_decoder cpython_bytes_detail)
     malformed_world).1 =
  (run_process (main unit paired_quotes_decoder cpython_bytes_detail)
     busy_world).1.
Proof.
  assert (E : fs malformed_world !! fixture_path
              = fs busy_world !! fixture_path) by (vm_compute; reflexivity).
  split; [exact E|].
  exact (proj1 (proj1
    (runs_agree_on_same_fixture unit paired_quotes_decoder
       cpython_bytes_detail malformed_world busy_world E))).
Defined.

Lemma one_scoped_handle_witness :
  fs busy_world !! fixture_path = Some (RegularFile unterminated_bytes true) /\
  raises
    (read_and_decode unit paired_quotes_decoder cpython_bytes_detail
       busy_world).1 TypeError.
Proof.
  assert (E : fs busy_world !! fixture_path
              = Some (RegularFile unterminated_bytes true))
    by (vm_compute; reflexivity).
  split; [exact E|].
  exact (proj1 (proj2 (proj2 (proj2 (proj2
    (one_scoped_handle unit paired_quotes_decoder cpython_bytes_detail
       busy_world)))) unterminated_bytes E)).
Defined.

Lemma bytes_argument_always_type_error_witness :
  fs malformed_world !! fixture_path
    = Some (RegularFile unterminated_bytes true) /\
  (run_process (main unit paired_quotes_decoder cpython_bytes_detail)
     malformed_world).1 = Exited 1.
Proof.
  assert (E : fs malformed_world !! fixture_path
              = Some (RegularFile unterminated_bytes true)) by reflexivity.
  split; [exact E|].
  exact (proj1 (proj2 (proj2 (proj2 (proj2
    (bytes_argument_always_type_error unit paired_quotes_decoder
       cpython_bytes_detail malformed_world unterminated_bytes E)))))).
Defined.

(** ** Further properties of the script *)

(** X2. A fixture that exists but may not be read: [open] raises
    [PermissionError], which is no [TOMLDecodeError]; nothing is read or
    decoded and no descriptor is taken; the script prints the warning
    with the text of errno 13 and exits with 1. *)
Theorem unreadable_fixture_warns
    (doc : Type) (parse : string -> outcome doc) (detail : string)
    (w : world) (content : list Byte.byte) :
  fs w !! fixture_path = Some (RegularFile content false) ->
  (read_and_decode doc parse detail w).1 =
    Raise (Err PermissionError
      "[Errno 13] Permission denied: '.secrets.toml.test'") /\
  issubclass PermissionError TOMLDecodeError = false /\
  performed w (run_process (main doc parse detail) w).2 =
    [EvOpen ".secrets.toml.test" true None] /\
  handles (run_process (main doc parse detail) w).2 = handles w /\
  (run_process (main doc parse detail) w).1 = Exited 1 /\
  printed w (run_process (main doc parse detail) w).2 =
    ["⚠️  Unexpected error: [Errno 13] Permission denied: '.secrets.toml.test'"].
Proof.
  intros E. rewrite main_run, read_and_decode_run. cbn [fst snd].
  destruct (final_world_frame detail w) as [_ H].
  rewrite performed_final_world, printed_final_world, E. done.
Qed.

(** X3. A directory at the fixture path: [open] raises
    [IsADirectoryError], which is no [TOMLDecodeError]; nothing is read
    or decoded and no descriptor is taken; the script prints the warning
    with the text of errno 21 and exits with 1. *)
Theorem directory_fixture_warns
    (doc : Type) (parse : string -> outcome doc) (detail : string)
    (w : world) :
  fs w !! fixture_path = Some Directory ->
  (read_and_decode doc parse detail w).1 =
    Raise (Err IsADirectoryError
      "[Errno 21] Is a directory: '.secrets.toml.test'") /\
  issubclass IsADirectoryError TOMLDecodeError = false /\
  performed w (run_process (main doc parse detail) w).2 =
    [EvOpen ".secrets.toml.test" true None] /\
  handles (run_process (main doc parse detail) w).2 = handles w /\
  (run_process (main doc parse detail) w).1 = Exited 1 /\
  printed w (run_process (main doc parse detail) w).2 =
    ["⚠️  Unexpected error: [Errno 21] Is a directory: '.secrets.toml.test'"].
Proof.
  intros E. rewrite main_run, read_and_decode_run. cbn [fst snd].
  destruct (final_world_frame detail w) as [_ H].
  rewrite performed_final_world, printed_final_world, E. done.
Qed.

(** X4. An exception of the step that is no instance of [Exception]
    (a [KeyboardInterrupt], a [SystemExit]) matches neither [except]
    clause: the [try] statement passes it on as it is and prints
    nothing. *)
Theorem non_exception_passes_through
    (step : M unit) (w w1 : world) (e : exn) :
  step w = (Raise e, w1) ->
  isinstance e Exception = false ->
  check step w = (Raise e, w1).
Proof.
  intros R N. unfold check, try_except, bind. rewrite R.
  assert (T : isinstance e TOMLDecodeError = false).
  { destruct e as [c d|code]; [destruct c|]; (reflexivity || discriminate N). }
  cbn [dispatch handlers]. by rewrite T, N.
Qed.

Lemma unreadable_fixture_warns_witness :
  fs (world_with (Some (RegularFile unterminated_bytes false))) !! fixture_path
    = Some (RegularFile unterminated_bytes false) /\
  (run_process (main unit paired_quotes_decoder cpython_bytes_detail)
     (world_with (Some (RegularFile unterminated_bytes false)))).1 = Exited 1.
Proof.
  assert (E : fs (world_with (Some (RegularFile unterminated_bytes false)))
                !! fixture_path
              = Some (RegularFile unterminated_bytes false)) by reflexivity.
  split; [exact E|].
  exact (proj1 (proj2 (proj2 (proj2 (proj2
    (unreadable_fixture_warns unit paired_quotes_decoder cpython_bytes_detail
       _ unterminated_bytes E)))))).
Defined.

Lemma directory_fixture_warns_witness :
  fs (world_with (Some Directory)) !! fixture_path = Some Directory /\
  (run_process (main unit paired_quotes_decoder cpython_bytes_detail)
     (world_with (Some Directory))).1 = Exited 1.
Proof.
  assert (E : fs (world_with (Some Directory)) !! fixture_path
              = Some Directory) by reflexivity.
  split; [exact E|].
  exact (proj1 (proj2 (proj2 (proj2 (proj2
    (directory_fixture_warns unit paired_quotes_decoder cpython_bytes_detail
       _ E)))))).
Defined.

Lemma non_exception_passes_through_witness :
  @raise unit (Err KeyboardInterrupt "interrupted") missing_world
    = (Raise (Err KeyboardInterrupt "interrupted"), missing_world) /\
  isinstance (Err KeyboardInterrupt "interrupted") Exception = false /\
  check (raise (Err KeyboardInterrupt "interrupted")) missing_world
    = (Raise (Err KeyboardInterrupt "interrupted"), missing_world).
Proof.
  assert (R : @raise unit (Err KeyboardInterrupt "interrupted") missing_world
              = (Raise (Err KeyboardInterrupt "interrupted"), missing_world))
    by reflexivity.
  assert (N : isinstance (Err KeyboardInterrupt "interrupted") Exception
              = false) by reflexivity.
  split; [exact R|]. split; [exact N|].
  exact (non_exception_passes_through _ _ _ _ R N).
Defined.

(** ** The script on a console that may refuse a text *)


(** On a stream that takes every text the script is the one above. *)
Lemma check_on_utf8 (step : M unit) : check_on utf8_console step = check step.
Proof. reflexivity. Qed.




(** X1. Whatever is at the fixture path, whatever the decoder, and
    whether or not standard output takes the message (what it raises
    when it does not being an instance of [Exception]): the step ends
    with an exception and the process ends with status 1, never 0.
    When the stream takes the warning line the script exits with 1
    having added that one line; when it refuses it, the stream's
    exception reaches the top level and nothing is added. *)
Theorem script_never_exits_0
    (doc : Type) (parse : string -> outcome doc) (detail : string)
    (out : console) (w : world) :
  (forall (s : string) (e : exn),
      out s = Some e -> isinstance e Exception = true) ->
  exists e : exn,
    (read_and_decode doc parse detail w).1 = Raise e /\
    exit_code (run_process (main_on doc parse detail out) w).1 = 1 /\
    match out ("⚠️  Unexpected error: " +:+ str e) with
    | None =>
        (run_process (main_on doc parse detail out) w).1 = Exited 1 /\
        stdout (run_process (main_on doc parse detail out) w).2 =
          stdout w ++ ["⚠️  Unexpected error: " +:+ str e]
    | Some e' =>
        (run_process (main_on doc parse detail out) w).1 = Traceback e' /\
        stdout (run_process (main_on doc parse detail out) w).2 = stdout w
    end.
Proof.
  intros H.
  exists (step_error detail (fs w !! fixture_path)).
  unfold run_process, main_on, check_on, try_except, bind.
  rewrite read_and_decode_run. cbn [fst snd].
  split; [reflexivity|].
  assert (D : dispatch (handlers_on out)
                (step_error detail (fs w !! fixture_path)) =
              on_other_error_on out
                (step_error detail (fs w !! fixture_path))).
  { destruct (fs w !! fixture_path) as [[content [|]|]|]; reflexivity. }
  rewrite D. unfold on_other_error_on, bind, print_on.
  destruct (out ("⚠️  Unexpected error: " +:+
                 str (step_error detail (fs w !! fixture_path))))
    as [e'|] eqn:O.
  - specialize (H _ _ O). destruct e' as [c d|code]; [|discriminate H].
    cbn. done.
  - cbn. done.
Qed.

(** X5. The [try] statement never completes normally: whatever the step
    does and whatever standard output does with the messages, it ends
    with [SystemExit(0)] or [SystemExit(1)] raised by one of its three
    branches, with an exception of the step that no clause handles, or
    with an exception that standard output raised on one of the
    messages.  The exit status is never left to the end of the
    module. *)
Theorem check_on_never_falls_through
    (out : console) (step : M unit) (w : world) :
  (check_on out step w).1 = Raise (SysExit 0) \/
  (check_on out step w).1 = Raise (SysExit 1) \/
  (exists e : exn,
      (step w).1 = Raise e /\
      isinstance e Exception = false /\
      (check_on out step w).1 = Raise e) \/
  (exists (l : string) (e : exn),
      out l = Some e /\ (check_on out step w).1 = Raise e).
Proof.
  assert (Hd : forall (e : exn) (w1 : world),
    (on_decode_error_on out e w1).1 = Raise (SysExit 0) \/
    exists (l : string) (e' : exn),
      out l = Some e' /\ (on_decode_error_on out e w1).1 = Raise e').
  { intros e w1. unfold on_decode_error_on, bind, print_on.
    destruct (out "✅ TOML validation correctly caught error:") eqn:O1;
      [right; eauto|].
    destruct (out ("   " +:+ str e)) eqn:O2; [right; eauto|].
    left; reflexivity. }
  assert (Ho : forall (e : exn) (w1 : world),
    (on_other_error_on out e w1).1 = Raise (SysExit 1) \/
    exists (l : string) (e' : exn),
      out l = Some e' /\ (on_other_error_on out e w1).1 = Raise e').
  { intros e w1. unfold on_other_error_on, bind, print_on.
    destruct (out ("⚠️  Unexpected error: " +:+ str e)) eqn:O1;
      [right; eauto|].
    left; reflexivity. }
  assert (Hh : forall (e : exn) (w1 : world),
    (dispatch (handlers_on out) e w1).1 = Raise (SysExit 0) \/
    (dispatch (handlers_on out) e w1).1 = Raise (SysExit 1) \/
    (isinstance e Exception = false /\
     (dispatch (handlers_on out) e w1).1 = Raise e) \/
    exists (l : string) (e' : exn),
      out l = Some e' /\ (dispatch (handlers_on out) e w1).1 = Raise e').
  { intros e w1. cbn [dispatch handlers_on].
    destruct (isinstance e TOMLDecodeError) eqn:T.
    - destruct (Hd e w1) as [->|?]; auto.
    - destruct (isinstance e Exception) eqn:N.
      + destruct (Ho e w1) as [->|?]; auto.
      + right; right; left. done. }
  unfold check_on, try_except, bind.
  destruct (step w) as [[[]|e] w1]; cbn [fst].
  - unfold after_decode_on, bind, print_on.
    destruct (out "❌ ERROR: TOML validation should have failed!")
      as [e1|] eqn:O1.
    + destruct (Hh e1 w1) as [->|[->|[[_ ->]|?]]]; eauto 10.
    + destruct (out "   Missing closing quote was not detected!")
        as [e2|] eqn:O2.
      * destruct (Hh e2 (emit "❌ ERROR: TOML validation should have failed!" w1))
          as [->|[->|[[_ ->]|?]]]; eauto 10.
      * right; left; reflexivity.
  - destruct (Hh e w1) as [->|[->|[[N ->]|?]]]; eauto 10.
Qed.

(** ** Instances on a console *)


Lemma script_never_exits_0_witness :
  (forall (s : string) (e : exn),
      ascii_console s = Some e -> isinstance e Exception = true) /\
  exists e : exn,
    (read_and_decode unit paired_quotes_decoder cpython_bytes_detail
       malformed_world).1 = Raise e /\
    exit_code
      (run_process
         (main_on unit paired_quotes_decoder cpython_bytes_detail
            ascii_console) malformed_world).1 = 1.
Proof.
  assert (H : forall (s : string) (e : exn),
             ascii_console s = Some e -> isinstance e Exception = true).
  { intros s e. unfold ascii_console.
    destruct (ascii_encode_error s); intros E; [|discriminate E].
    injection E as <-. reflexivity. }
  split; [exact H|].
  destruct (script_never_exits_0 unit paired_quotes_decoder
              cpython_bytes_detail ascii_console malformed_world H)
    as (e & R & X & _).
  exists e. split; [exact R|exact X].
Defined.
